(** * Password analyser: character classes, brute-force estimate, tiers

    A shallow embedding of [modules/passutils.py], [modules/utils.py] and
    [pypasstool/checkpass.py].

    - A Python [str] is a [string]; iterating over it yields its characters.
      Every character of the six class tables is ASCII.
    - A Python [set] of characters is a [gset ascii]; [len] of a set is its
      [size].
    - A Python [int] is a [Z] (unbounded).
    - A [float] is a binary64 number, a [spec_float] at precision 53 and
      maximal exponent 1024; its division, subtraction and addition are
      the IEEE operations [SFdiv], [SFsub] and [SFadd], which round to
      the nearest even.  Where a float is only compared
      ([set_password_security]) it is the rational [Q] it stands for:
      every finite float is a rational and the comparisons agree.
    - An exception is an [Err] result. *)

From Stdlib Require Import Ascii String ZArith QArith Qround Lia Lqa.
From Stdlib Require Import Qpower SpecFloat.
From stdpp Require Import base decidable list gmap strings pretty.

Local Open Scope Z_scope.

(** ** Python values shared by the three modules *)

(** The built-in exceptions the modelled functions can raise. *)
Inductive exception : Set :=
  | ZeroDivisionError
  | IndexError
  | OverflowError
  | ValueError.

Inductive result (A : Type) : Type :=
  | Ok (a : A)
  | Err (e : exception).
Arguments Ok {A} a.
Arguments Err {A} e.

Definition bind {A B} (r : result A) (k : A → result B) : result B :=
  match r with
  | Ok a => k a
  | Err e => Err e
  end.

Notation "'let*' x := r 'in' k" := (bind r (λ x, k))
  (at level 10, x name, r at level 100, k at level 200).

(** [any(f(x) for x in l)] and [all(f(x) for x in l)]: both stop at the
    first element that settles the answer. *)
Fixpoint py_any {A} (f : A → bool) (l : list A) : bool :=
  match l with
  | [] => false
  | x :: l' => if f x then true else py_any f l'
  end.

Fixpoint py_all {A} (f : A → bool) (l : list A) : bool :=
  match l with
  | [] => true
  | x :: l' => if f x then py_all f l' else false
  end.

(** [sum(l)] on a list of ints: a left fold starting at 0. *)
Definition py_sum (l : list Z) : Z := fold_left Z.add l 0.

(** [len(s)] of a set. *)
Definition len_set (s : gset ascii) : Z := Z.of_nat (size s).

(** [int(x)] truncates towards zero. *)
Definition py_int (x : Q) : Z := Z.quot (Qnum x) (Z.pos (Qden x)).

(** [x // y] in exact arithmetic: the floor of the quotient, still a
    number.  This is [//] on ints; on floats [//] rounds, see
    [float_floordiv]. *)
Definition floordiv (x : Q) (y : Z) : Q := inject_Z (Qfloor (x / inject_Z y)).

(** [x < y] as a boolean; [x <= y] is [Qle_bool]. *)
Definition Qlt_bool (x y : Q) : bool := negb (Qle_bool y x).

(** [l[i]] raises IndexError past the end. *)
Definition getitem (l : list Q) (i : nat) : result Q :=
  match l !! i with
  | Some x => Ok x
  | None => Err IndexError
  end.

(** ** Python floats *)

Abbreviation float := spec_float.

Definition prec : Z := 53.
Definition emax : Z := 1024.

Definition zero : float := S754_zero false.
Definition one : float := S754_finite false 4503599627370496 (-52).
Definition half : float := S754_finite false 4503599627370496 (-53).

(** The number a finite float stands for. *)
Definition float_value (x : float) : option Q :=
  match x with
  | S754_zero _ => Some 0%Q
  | S754_finite s m e => Some (inject_Z (cond_Zopp s (Z.pos m)) * 2 ^ e)%Q
  | S754_infinity _ | S754_nan => None
  end.

Definition signbit (x : float) : bool :=
  match x with
  | S754_zero s | S754_infinity s | S754_finite s _ _ => s
  | S754_nan => false
  end.

(** [x == 0.0], true of both zeros and false of a NaN. *)
Definition is_zero (x : float) : bool := SFeqb x zero.

(** [float(z)], the conversion an int undergoes when it meets a float:
    the nearest float, or OverflowError when that is out of range. *)
Definition float_of_int (z : Z) : result float :=
  match binary_normalize prec emax z 0 false with
  | S754_infinity _ => Err OverflowError
  | x => Ok x
  end.

(** [int(x)] on a float: exact truncation; a NaN raises ValueError and
    an infinity OverflowError. *)
Definition int_of_float (x : float) : result Z :=
  match x with
  | S754_nan => Err ValueError
  | S754_infinity _ => Err OverflowError
  | S754_zero _ => Ok 0
  | S754_finite s m e =>
      Ok (py_int (inject_Z (cond_Zopp s (Z.pos m)) * 2 ^ e)%Q)
  end.

(** [x < k] for a float and an int: the comparison is exact. *)
Definition float_lt_int (x : float) (k : Z) : bool :=
  match x with
  | S754_nan => false
  | S754_infinity s => s
  | S754_zero _ => 0 <? k
  | S754_finite s m e =>
      Qlt_bool (inject_Z (cond_Zopp s (Z.pos m)) * 2 ^ e)%Q (inject_Z k)
  end.

(** [a / b] on floats. *)
Definition float_truediv (a b : float) : result float :=
  if is_zero b then Err ZeroDivisionError else Ok (SFdiv prec emax a b).

(** C's [fmod]: the remainder of the truncated quotient, with the sign
    of [x]; it is exact. *)
Definition fmod (x y : float) : float :=
  match x, y with
  | S754_nan, _ | _, S754_nan => S754_nan
  | S754_infinity _, _ => S754_nan
  | _, S754_zero _ => S754_nan
  | S754_zero _, _ => x
  | S754_finite _ _ _, S754_infinity _ => x
  | S754_finite sx mx ex, S754_finite sy my ey =>
      let ez := Z.min ex ey in
      let X := Z.pos (fst (shl_align mx ex ez)) in
      let Y := Z.pos (fst (shl_align my ey ez)) in
      binary_normalize prec emax (cond_Zopp sx (Z.rem X Y)) ez sx
  end.

(** C's [floor]. *)
Definition floor (x : float) : float :=
  match x with
  | S754_finite s m (Z.neg p) =>
      binary_normalize prec emax
        (Z.shiftr (cond_Zopp s (Z.pos m)) (Z.pos p)) 0 s
  | _ => x
  end.

(** [vx // wx] on floats, as the interpreter computes it: the remainder
    by [fmod], the quotient of [vx - rem] by [wx], one less when the
    remainder and the divisor differ in sign, then the quotient snapped
    to the nearest integral value. *)
Definition float_floordiv (vx wx : float) : result float :=
  if is_zero wx then Err ZeroDivisionError else
  let rem := fmod vx wx in
  let div := SFdiv prec emax (SFsub prec emax vx rem) wx in
  let div :=
    if negb (is_zero rem) then
      if xorb (SFltb wx zero) (SFltb rem zero)
      then SFsub prec emax div one else div
    else div in
  if negb (is_zero div) then
    let floored := floor div in
    if SFltb half (SFsub prec emax div floored)
    then Ok (SFadd prec emax floored one) else Ok floored
  else Ok (S754_zero (signbit (SFdiv prec emax vx wx))).

(** [x // k] for a float and an int. *)
Definition floordiv_int (x : float) (k : Z) : result float :=
  let* w := float_of_int k in float_floordiv x w.

(** ** modules/passutils.py *)

Module passutils.

Definition HIGH_COMP_SYMB : gset ascii :=
  list_to_set ["!"; "#"; "$"; "%"; "&"; "*"; "@"; "^"]%char.

Definition MED_COMP_SYMB : gset ascii :=
  list_to_set ["("; ")"; "-"; "."; "_"]%char.

Definition LOW_COMP_SYMB : gset ascii :=
  list_to_set ["034"; "'"; "+"; ","; "/"; ":"; ";"; "<"; "="; ">"; "?"; "[";
               "\"; "]"; "`"; "{"; "|"; "}"; "~"]%char.

Definition DIGITS : gset ascii :=
  list_to_set ["0"; "1"; "2"; "3"; "4"; "5"; "6"; "7"; "8"; "9"]%char.

Definition LOWER : gset ascii :=
  list_to_set ["a"; "b"; "c"; "d"; "e"; "f"; "g"; "h"; "i"; "j"; "k"; "l";
               "m"; "n"; "o"; "p"; "q"; "r"; "s"; "t"; "u"; "v"; "w"; "x";
               "y"; "z"]%char.

Definition UPPER : gset ascii :=
  list_to_set ["A"; "B"; "C"; "D"; "E"; "F"; "G"; "H"; "I"; "J"; "K"; "L";
               "M"; "N"; "O"; "P"; "Q"; "R"; "S"; "T"; "U"; "V"; "W"; "X";
               "Y"; "Z"]%char.

Definition VALID_PASS_CHARS : gset ascii :=
  LOW_COMP_SYMB ∪ MED_COMP_SYMB ∪ HIGH_COMP_SYMB ∪ DIGITS ∪ LOWER ∪ UPPER.

(** The function only iterates [password] and tests membership in
    [char_list], so it is written for any alphabet; a [str] is used at
    [ascii]. *)
Definition password_has_chartype `{Countable char}
    (password : list char) (char_list : gset char) : bool :=
  py_any (λ c, bool_decide (c ∈ char_list)) password.

Definition is_password_vaild (password : string) : bool :=
  py_all (λ c, bool_decide (c ∈ VALID_PASS_CHARS))
         (list_ascii_of_string password).

Record PasswordInfo : Set := mkPasswordInfo {
  length : nat;          (* len(password) *)
  digits : bool;
  lower : bool;
  upper : bool;
  highcompsymb : bool;
  medcompsymb : bool;
  lowcompsymb : bool;
  security : Z
}.

(** [PasswordInfo()] *)
Definition init : PasswordInfo :=
  mkPasswordInfo 0 false false false false false false 0.

(** [passinfo.length = n] and [passinfo.security = t] *)
Definition set_length (p : PasswordInfo) (n : nat) : PasswordInfo :=
  mkPasswordInfo n (digits p) (lower p) (upper p) (highcompsymb p)
                 (medcompsymb p) (lowcompsymb p) (security p).

Definition set_security (p : PasswordInfo) (t : Z) : PasswordInfo :=
  mkPasswordInfo (length p) (digits p) (lower p) (upper p) (highcompsymb p)
                 (medcompsymb p) (lowcompsymb p) t.

End passutils.

(** ** modules/utils.py *)

Module utils.

(** An argument of [cprint]: the function only tells a [str] from any
    other object. *)
Inductive argument : Set :=
  | Str (s : string)
  | NotStr.

Inductive cprint_exception : Set :=
  | ValueError (message : string)
  | KeyError (key : string).

(** [f"{x}"] of the value of a [dict.get]: [None] is written [None]. *)
Definition format (x : option string) : string := default "None" x.

Section Colors.

(** [COLORS] comes from the module [modules.constants], which is not
    among the modelled files: the dict of colour codes is a parameter. *)
Variable COLORS : gmap string string.

(** The call either raises or hands one line to [print]; the line is
    the result.  The f-string formats the looked-up colour and the text
    before it evaluates [COLORS['RST']], which raises KeyError when the
    key is missing. *)
Definition cprint (text color : argument) : cprint_exception + string :=
  match text with
  | NotStr => inl (ValueError "El texto a imprimir debe ser un string.")
  | Str text =>
      match color with
      | NotStr =>
          inl (ValueError "El color debe ser un string en mayúsculas.")
      | Str color =>
          let color :=
            match COLORS !! color with
            | Some code => Some code
            | None => COLORS !! "RST"
            end in
          match COLORS !! "RST" with
          | Some reset => inr (format color +:+ text +:+ reset)
          | None => inl (KeyError "RST")
          end
      end
  end.

End Colors.

(** [secs_to_time] in exact arithmetic: this is the function on an int
    argument, where [<], [int] and [//] are exact.  On a float argument
    the comparisons are the same but [//] rounds: see
    [secs_to_time_float]. *)
Definition secs_to_time (seconds : Q) : string :=
  let SECOND := 1 in
  let MINUTE := 60 * SECOND in
  let HOUR := 60 * MINUTE in
  let DAY := 24 * HOUR in
  let WEEK := 7 * DAY in
  let MONTH := 30 * DAY in
  let YEAR := 365 * DAY in
  if Qlt_bool seconds (inject_Z SECOND) then
    "Instantáneo"
  else if Qlt_bool seconds (inject_Z MINUTE) then
    let duration := py_int seconds in
    let unit := if duration =? 1 then "segundo" else "segundos" in
    pretty duration +:+ " " +:+ unit
  else if Qlt_bool seconds (inject_Z HOUR) then
    let duration := py_int (floordiv seconds MINUTE) in
    let unit := if duration =? 1 then "minuto" else "minutos" in
    pretty duration +:+ " " +:+ unit
  else if Qlt_bool seconds (inject_Z DAY) then
    let duration := py_int (floordiv seconds HOUR) in
    let unit := if duration =? 1 then "hora" else "horas" in
    pretty duration +:+ " " +:+ unit
  else if Qlt_bool seconds (inject_Z MONTH) then
    let duration := py_int (floordiv seconds WEEK) in
    let unit := if duration =? 1 then "semana" else "semanas" in
    pretty duration +:+ " " +:+ unit
  else if Qlt_bool seconds (inject_Z YEAR) then
    let duration := py_int (floordiv seconds MONTH) in
    let unit := if duration =? 1 then "mes" else "meses" in
    pretty duration +:+ " " +:+ unit
  else
    let duration := py_int (floordiv seconds YEAR) in
    let unit := if duration =? 1 then "año" else "años" in
    pretty duration +:+ " " +:+ unit.

(** [secs_to_time] on a float argument. *)
Definition secs_to_time_float (seconds : float) : result string :=
  let SECOND := 1 in
  let MINUTE := 60 * SECOND in
  let HOUR := 60 * MINUTE in
  let DAY := 24 * HOUR in
  let WEEK := 7 * DAY in
  let MONTH := 30 * DAY in
  let YEAR := 365 * DAY in
  if float_lt_int seconds SECOND then
    Ok "Instantáneo"
  else if float_lt_int seconds MINUTE then
    let* duration := int_of_float seconds in
    let unit := if duration =? 1 then "segundo" else "segundos" in
    Ok (pretty duration +:+ " " +:+ unit)
  else if float_lt_int seconds HOUR then
    let* quotient := floordiv_int seconds MINUTE in
    let* duration := int_of_float quotient in
    let unit := if duration =? 1 then "minuto" else "minutos" in
    Ok (pretty duration +:+ " " +:+ unit)
  else if float_lt_int seconds DAY then
    let* quotient := floordiv_int seconds HOUR in
    let* duration := int_of_float quotient in
    let unit := if duration =? 1 then "hora" else "horas" in
    Ok (pretty duration +:+ " " +:+ unit)
  else if float_lt_int seconds MONTH then
    let* quotient := floordiv_int seconds WEEK in
    let* duration := int_of_float quotient in
    let unit := if duration =? 1 then "semana" else "semanas" in
    Ok (pretty duration +:+ " " +:+ unit)
  else if float_lt_int seconds YEAR then
    let* quotient := floordiv_int seconds MONTH in
    let* duration := int_of_float quotient in
    let unit := if duration =? 1 then "mes" else "meses" in
    Ok (pretty duration +:+ " " +:+ unit)
  else
    let* quotient := floordiv_int seconds YEAR in
    let* duration := int_of_float quotient in
    let unit := if duration =? 1 then "año" else "años" in
    Ok (pretty duration +:+ " " +:+ unit).

End utils.

(** ** pypasstool/checkpass.py *)

Module checkpass.
Import passutils.

(** The loop over [chartypes.items()] assigns the six flags in the order
    the dictionary lists them; each assignment is independent.  The
    length is the number of characters of an ASCII password, which is
    what [is_password_vaild] lets through. *)
Definition analyze_password_props (password : string)
    (passinfo : PasswordInfo) : PasswordInfo :=
  let chars := list_ascii_of_string password in
  mkPasswordInfo
    (List.length chars)
    (password_has_chartype chars DIGITS)
    (password_has_chartype chars LOWER)
    (password_has_chartype chars UPPER)
    (password_has_chartype chars HIGH_COMP_SYMB)
    (password_has_chartype chars MED_COMP_SYMB)
    (password_has_chartype chars LOW_COMP_SYMB)
    (security passinfo).

Definition calc_password_combinations (passinfo : PasswordInfo) : Z :=
  let charsets := [
    if digits passinfo then len_set DIGITS else 0;
    if lower passinfo then len_set LOWER else 0;
    if upper passinfo then len_set UPPER else 0;
    if highcompsymb passinfo then len_set HIGH_COMP_SYMB else 0;
    if medcompsymb passinfo
      then len_set HIGH_COMP_SYMB + len_set MED_COMP_SYMB else 0;
    if lowcompsymb passinfo
      then len_set HIGH_COMP_SYMB + len_set MED_COMP_SYMB
           + len_set LOW_COMP_SYMB
      else 0
  ] in
  py_sum charsets ^ Z.of_nat (length passinfo).

(** [/] of an int by a float: the int is converted first, which raises
    OverflowError when it is out of the float range; then a zero
    divisor raises ZeroDivisionError; otherwise the floats are divided,
    whatever their signs. *)
Definition get_bruteforce_time (pass_combinations : Z) (hashrate : float)
    : result float :=
  let* combinations := float_of_int pass_combinations in
  float_truediv combinations hashrate.

Section Limits.

(** [PASSWORD_SECURITY_LIMITS] comes from the module [utils.constants],
    which is not among the modelled files: the list is a parameter. *)
Variable PASSWORD_SECURITY_LIMITS : list Q.

(** A chained comparison [a < t <= b] evaluates [b] only when [a < t]
    holds. *)
Definition set_password_security (bruteforce_time : Q)
    (passinfo : PasswordInfo) : result PasswordInfo :=
  let* c0 :=
    if Qle_bool 0 bruteforce_time then
      let* l0 := getitem PASSWORD_SECURITY_LIMITS 0 in
      Ok (Qle_bool bruteforce_time l0)
    else Ok false in
  if c0 then Ok (set_security passinfo 0) else
  let* c1 :=
    let* l0 := getitem PASSWORD_SECURITY_LIMITS 0 in
    if Qlt_bool l0 bruteforce_time then
      let* l1 := getitem PASSWORD_SECURITY_LIMITS 1 in
      Ok (Qle_bool bruteforce_time l1)
    else Ok false in
  if c1 then Ok (set_security passinfo 1) else
  let* c2 :=
    let* l1 := getitem PASSWORD_SECURITY_LIMITS 1 in
    if Qlt_bool l1 bruteforce_time then
      let* l2 := getitem PASSWORD_SECURITY_LIMITS 2 in
      Ok (Qle_bool bruteforce_time l2)
    else Ok false in
  if c2 then Ok (set_security passinfo 2) else
  let* c3 :=
    let* l2 := getitem PASSWORD_SECURITY_LIMITS 2 in
    if Qlt_bool l2 bruteforce_time then
      let* l3 := getitem PASSWORD_SECURITY_LIMITS 3 in
      Ok (Qle_bool bruteforce_time l3)
    else Ok false in
  if c3 then Ok (set_security passinfo 3) else
  Ok (set_security passinfo 4).

End Limits.

Definition get_security_color (passinfo_security : Z) : string :=
  let color_map : gmap Z string :=
    {[ 0 := "M"; 1 := "R"; 2 := "Y"; 3 := "C"; 4 := "G" ]} in
  default "RST" (color_map !! passinfo_security).

(** [improvements_list.append(m)] *)
Definition append (improvements_list : list string) (m : string)
    : list string :=
  improvements_list ++ [m].

Definition password_improvements (passinfo : PasswordInfo) : list string :=
  let improvements_list := [] in
  if security passinfo =? 4 then
    append improvements_list "Tu contraseña es muy segura. ¡Buen trabajo!"
  else
    let improvements_list :=
      if security passinfo =? 0 then
        append improvements_list "Tu contraseña es extremadamente débil a ataques de fuerza bruta. Considera cambiarla de inmediato."
      else if security passinfo =? 1 then
        append improvements_list "Tu contraseña es muy débil a ataques de fuerza bruta. Se recomienda mejorarla para mayor seguridad."
      else if security passinfo =? 2 then
        append improvements_list "Tu contraseña es débil a ataques de fuerza bruta. debería mejorarse."
      else if security passinfo =? 3 then
        append improvements_list "Tu contraseña es fuerte a ataques de fuerza bruta, pero puedes hacerla más segura."
      else improvements_list in
    let improvements_list :=
      if (length passinfo <? 12)%nat then
        append improvements_list "Aumenta la longitud de tu contraseña. Se recomienda al menos 12 caracteres."
      else improvements_list in
    let improvements_list :=
      if negb (digits passinfo) then
        append improvements_list "Incluye números en tu contraseña para mayor variedad."
      else improvements_list in
    let improvements_list :=
      if negb (lower passinfo) then
        append improvements_list "Incluye letras minúsculas en tu contraseña."
      else improvements_list in
    let improvements_list :=
      if negb (upper passinfo) then
        append improvements_list "Incluye letras mayúsculas en tu contraseña."
      else improvements_list in
    let improvements_list :=
      if negb (highcompsymb passinfo || medcompsymb passinfo
               || lowcompsymb passinfo) then
        append improvements_list "Agrega símbolos (como @, #, $, etc.) para aumentar la complejidad."
      else improvements_list in
    improvements_list.

End checkpass.

Import passutils utils checkpass.

(** * Vocabulary of the properties *)

Definition in_defined_class (c : ascii) : Prop :=
  c ∈ DIGITS ∨ c ∈ LOWER ∨ c ∈ UPPER
  ∨ c ∈ HIGH_COMP_SYMB ∨ c ∈ MED_COMP_SYMB ∨ c ∈ LOW_COMP_SYMB.

(** The weight a category slot adds to the alphabet estimate. *)
Definition slot (present : bool) (weight : Z) : Z :=
  if present then weight else 0.

Definition weight_sum (p : PasswordInfo) : Z :=
  slot (digits p) 10 + slot (lower p) 26 + slot (upper p) 26
  + slot (highcompsymb p) 8 + slot (medcompsymb p) 13
  + slot (lowcompsymb p) 32.

(** At least one category flag is set. *)
Definition has_category (p : PasswordInfo) : Prop :=
  digits p || lower p || upper p
  || highcompsymb p || medcompsymb p || lowcompsymb p = true.

(** Every category present in [p] is present in [q]. *)
Definition categories_le (p q : PasswordInfo) : Prop :=
  (digits p → digits q) ∧ (lower p → lower q) ∧ (upper p → upper q)
  ∧ (highcompsymb p → highcompsymb q) ∧ (medcompsymb p → medcompsymb q)
  ∧ (lowcompsymb p → lowcompsymb q).

Definition ALREADY_STRONG : string :=
  "Tu contraseña es muy segura. ¡Buen trabajo!".
Definition TIER_0 : string :=
  "Tu contraseña es extremadamente débil a ataques de fuerza bruta. Considera cambiarla de inmediato.".
Definition TIER_1 : string :=
  "Tu contraseña es muy débil a ataques de fuerza bruta. Se recomienda mejorarla para mayor seguridad.".
Definition TIER_2 : string :=
  "Tu contraseña es débil a ataques de fuerza bruta. debería mejorarse.".
Definition TIER_3 : string :=
  "Tu contraseña es fuerte a ataques de fuerza bruta, pero puedes hacerla más segura.".
Definition TOO_SHORT : string :=
  "Aumenta la longitud de tu contraseña. Se recomienda al menos 12 caracteres.".
Definition NO_DIGITS : string :=
  "Incluye números en tu contraseña para mayor variedad.".
Definition NO_LOWER : string :=
  "Incluye letras minúsculas en tu contraseña.".
Definition NO_UPPER : string :=
  "Incluye letras mayúsculas en tu contraseña.".
Definition NO_SYMBOLS : string :=
  "Agrega símbolos (como @, #, $, etc.) para aumentar la complejidad.".

(** One message when the condition holds, none otherwise. *)
Definition when (condition : bool) (message : string) : list string :=
  if condition then [message] else [].

(** The five property checks, in their fixed order. *)
Definition property_checks (p : PasswordInfo) : list string :=
  when (length p <? 12)%nat TOO_SHORT
  ++ when (negb (digits p)) NO_DIGITS
  ++ when (negb (lower p)) NO_LOWER
  ++ when (negb (upper p)) NO_UPPER
  ++ when (negb (highcompsymb p) && negb (medcompsymb p)
           && negb (lowcompsymb p)) NO_SYMBOLS.

(** The weakness message of a tier below 4; none for an integer that is
    no tier. *)
Definition weakness (t : Z) : list string :=
  if t =? 0 then [TIER_0] else
  if t =? 1 then [TIER_1] else
  if t =? 2 then [TIER_2] else
  if t =? 3 then [TIER_3] else [].

(** A count followed by its unit, singular exactly for a count of 1. *)
Definition duration_text (n : Z) (singular plural : string) : string :=
  pretty n +:+ " " +:+ (if decide (n = 1) then singular else plural).

(** A printable ASCII character other than the space. *)
Definition printable (c : ascii) : Prop :=
  (33 ≤ nat_of_ascii c ≤ 126)%nat.

(** The six class tables, and how many of them hold a character. *)
Definition classes : list (gset ascii) :=
  [DIGITS; LOWER; UPPER; HIGH_COMP_SYMB; MED_COMP_SYMB; LOW_COMP_SYMB].

Definition class_count (c : ascii) : nat :=
  List.length (List.filter (λ S : gset ascii, bool_decide (c ∈ S)) classes).

(** A security tier. *)
Definition is_tier (t : Z) : Prop := 0 ≤ t ≤ 4.

(** [p'] has the length and the six flags of [p]. *)
Definition same_profile (p p' : PasswordInfo) : Prop :=
  length p' = length p ∧ digits p' = digits p ∧ lower p' = lower p
  ∧ upper p' = upper p ∧ highcompsymb p' = highcompsymb p
  ∧ medcompsymb p' = medcompsymb p ∧ lowcompsymb p' = lowcompsymb p.



(** * Properties *)

(** ** Built-ins *)

Lemma py_any_true {A} (f : A → bool) (l : list A) :
  py_any f l = true ↔ ∃ x, x ∈ l ∧ f x = true.
Proof.
  induction l as [|a l IH]; simpl.
  - split; [discriminate | intros (x & Hx & _); inversion Hx].
  - destruct (f a) eqn:Ha.
    + split; [intros _; exists a; split; [left | done] | done].
    + rewrite IH. split.
      * intros (x & Hx & Hf). exists x. split; [by right | done].
      * intros (x & Hx & Hf). apply elem_of_cons in Hx as [-> | Hx];
          [congruence | eauto].
Qed.

Lemma py_all_true {A} (f : A → bool) (l : list A) :
  py_all f l = true ↔ Forall (λ x, f x = true) l.
Proof.
  induction l as [|a l IH]; simpl.
  - split; [constructor | done].
  - destruct (f a) eqn:Ha.
    + rewrite IH. split; [by constructor | apply Forall_inv_tail].
    + split; [discriminate | intros HF; apply Forall_inv in HF; congruence].
Qed.

(** ** Character classes *)

(** C7: [password_has_chartype] is true exactly when some character of
    the password belongs to the class set; it is false on the empty
    password, and false whenever no character of the password lies in
    the set (such characters are skipped, the function is total). *)
Theorem password_has_chartype_iff `{Countable char}
    (password : list char) (char_list : gset char) :
  (password_has_chartype password char_list = true
     ↔ ∃ c, c ∈ password ∧ c ∈ char_list)
  ∧ password_has_chartype [] char_list = false
  ∧ (Forall (λ c, c ∉ char_list) password
     → password_has_chartype password char_list = false).
Proof.
  assert (Hiff : password_has_chartype password char_list = true
                 ↔ ∃ c, c ∈ password ∧ c ∈ char_list).
  { unfold password_has_chartype. rewrite py_any_true.
    split; intros (c & Hc & Hin); exists c; split; try done.
    - by apply bool_decide_eq_true in Hin.
    - by apply bool_decide_eq_true. }
  split; [exact Hiff | split; [reflexivity |]].
  intros Hout. apply not_true_is_false. rewrite Hiff.
  intros (c & Hc & Hin). rewrite Forall_forall in Hout.
  exact (Hout c Hc Hin).
Qed.

Lemma password_has_chartype_witness :
  Forall (λ c, c ∉ DIGITS) (list_ascii_of_string "aB$")
  ∧ password_has_chartype (list_ascii_of_string "aB$") DIGITS = false.
Proof.
  assert (Hout : Forall (λ c, c ∉ DIGITS) (list_ascii_of_string "aB$")).
  { repeat constructor; vm_compute; intros Hin; discriminate Hin. }
  split; [exact Hout |].
  exact (proj2 (proj2 (password_has_chartype_iff
                         (list_ascii_of_string "aB$") DIGITS)) Hout).
Defined.

Lemma VALID_PASS_CHARS_spec (c : ascii) :
  c ∈ VALID_PASS_CHARS ↔ in_defined_class c.
Proof.
  unfold VALID_PASS_CHARS, in_defined_class.
  rewrite !elem_of_union. tauto.
Qed.

(** C8: [is_password_vaild] is true exactly when every character of the
    string belongs to one of the six classes; hence it is false as soon
    as one character lies outside all of them. *)
Theorem is_password_vaild_iff (s : string) :
  (is_password_vaild s = true
     ↔ Forall in_defined_class (list_ascii_of_string s))
  ∧ (is_password_vaild s = false
     ↔ Exists (λ c, ¬ in_defined_class c) (list_ascii_of_string s)).
Proof.
  assert (Hiff : is_password_vaild s = true
                 ↔ Forall in_defined_class (list_ascii_of_string s)).
  { unfold is_password_vaild. rewrite py_all_true.
    apply Forall_iff. intros c.
    rewrite bool_decide_eq_true. apply VALID_PASS_CHARS_spec. }
  split; [exact Hiff |].
  rewrite <- not_true_iff_false, Hiff. split.
  - apply not_Forall_Exists. intros c.
    destruct (decide (c ∈ VALID_PASS_CHARS)) as [Hin | Hout].
    + left. by apply VALID_PASS_CHARS_spec.
    + right. by rewrite <- VALID_PASS_CHARS_spec.
  - apply Exists_not_Forall.
Qed.

Example is_password_vaild_defined : is_password_vaild "aB3$_~" = true.
Proof. reflexivity. Qed.

Example is_password_vaild_space : is_password_vaild "a b" = false.
Proof. reflexivity. Qed.

(** ** Combinations *)

Lemma len_sets :
  len_set DIGITS = 10 ∧ len_set LOWER = 26 ∧ len_set UPPER = 26
  ∧ len_set HIGH_COMP_SYMB = 8 ∧ len_set MED_COMP_SYMB = 5
  ∧ len_set LOW_COMP_SYMB = 19.
Proof. repeat split; vm_compute; reflexivity. Qed.

Lemma calc_password_combinations_eq (p : PasswordInfo) :
  calc_password_combinations p = weight_sum p ^ Z.of_nat (length p).
Proof.
  destruct len_sets as (Hd & Hl & Hu & Hh & Hm & Hw).
  unfold calc_password_combinations, weight_sum, slot, py_sum.
  rewrite Hd, Hl, Hu, Hh, Hm, Hw. simpl fold_left.
  f_equal; lia.
Qed.

Lemma weight_sum_nonneg (p : PasswordInfo) : 0 ≤ weight_sum p.
Proof.
  unfold weight_sum, slot.
  destruct (digits p), (lower p), (upper p), (highcompsymb p),
    (medcompsymb p), (lowcompsymb p); lia.
Qed.

(** C1: the estimate is the sum of the weights of the present slots,
    raised to the password length; the weights are 10, 26 and 26 for
    digits, lowercase and uppercase, 8 for the high tier, 8+5 = 13 for
    the medium slot and 8+5+19 = 32 for the low slot, and 0 for an absent
    slot. *)
Theorem calc_password_combinations_spec (p : PasswordInfo) :
  calc_password_combinations p = weight_sum p ^ Z.of_nat (length p)
  ∧ len_set DIGITS = 10 ∧ len_set LOWER = 26 ∧ len_set UPPER = 26
  ∧ len_set HIGH_COMP_SYMB = 8
  ∧ len_set HIGH_COMP_SYMB + len_set MED_COMP_SYMB = 13
  ∧ len_set HIGH_COMP_SYMB + len_set MED_COMP_SYMB + len_set LOW_COMP_SYMB
    = 32.
Proof.
  destruct len_sets as (Hd & Hl & Hu & Hh & Hm & Hw).
  rewrite Hd, Hl, Hu, Hh, Hm, Hw.
  split; [apply calc_password_combinations_eq | done].
Qed.

Example calc_password_combinations_abc :
  calc_password_combinations (analyze_password_props "abc" init) = 26 ^ 3.
Proof. reflexivity. Qed.

Lemma weight_sum_pos (p : PasswordInfo) : has_category p → 1 ≤ weight_sum p.
Proof.
  unfold has_category, weight_sum, slot.
  destruct (digits p), (lower p), (upper p), (highcompsymb p),
    (medcompsymb p), (lowcompsymb p); simpl; intros; (lia || discriminate).
Qed.

Lemma weight_sum_mono (p q : PasswordInfo) :
  categories_le p q → weight_sum p ≤ weight_sum q.
Proof.
  unfold categories_le, weight_sum, slot.
  intros (Hd & Hl & Hu & Hh & Hm & Hw).
  destruct (digits p), (lower p), (upper p), (highcompsymb p),
    (medcompsymb p), (lowcompsymb p);
  destruct (digits q), (lower q), (upper q), (highcompsymb q),
    (medcompsymb q), (lowcompsymb q); simpl in *; try lia;
  exfalso; auto.
Qed.

(** C5: with at least one category present the estimate does not
    decrease when the length grows; at a fixed length it does not
    decrease when the set of present categories grows. *)
Theorem calc_password_combinations_mono :
  (∀ (p : PasswordInfo) (n m : nat),
     has_category p → (n ≤ m)%nat →
     calc_password_combinations (set_length p n)
     ≤ calc_password_combinations (set_length p m))
  ∧ (∀ p q : PasswordInfo,
       length p = length q → categories_le p q →
       calc_password_combinations p ≤ calc_password_combinations q).
Proof.
  split.
  - intros p n m Hcat Hnm. rewrite !calc_password_combinations_eq.
    change (weight_sum (set_length p n)) with (weight_sum p).
    change (weight_sum (set_length p m)) with (weight_sum p).
    simpl length. apply Z.pow_le_mono_r; [|lia].
    pose proof (weight_sum_pos p Hcat). lia.
  - intros p q Hlen Hle. rewrite !calc_password_combinations_eq, Hlen.
    apply Z.pow_le_mono_l. split; [apply weight_sum_nonneg |].
    by apply weight_sum_mono.
Qed.

Lemma calc_password_combinations_mono_witness :
  calc_password_combinations
    (set_length (mkPasswordInfo 0 true false false false false false 0) 2)
  ≤ calc_password_combinations
      (set_length (mkPasswordInfo 0 true false false false false false 0) 3)
  ∧ calc_password_combinations
      (mkPasswordInfo 2 true false false false false false 0)
    ≤ calc_password_combinations
        (mkPasswordInfo 2 true false false false true false 0).
Proof.
  split.
  - apply (proj1 calc_password_combinations_mono
             (mkPasswordInfo 0 true false false false false false 0) 2%nat
             3%nat); [reflexivity | lia].
  - apply (proj2 calc_password_combinations_mono
             (mkPasswordInfo 2 true false false false false false 0)
             (mkPasswordInfo 2 true false false false true false 0));
      [reflexivity | unfold categories_le; simpl; tauto].
Defined.

(** C6: a profile of length 0 has exactly one combination, whatever its
    flags; in particular the profile with no category at all, where the
    estimate is 0 to the power 0. *)
Theorem calc_password_combinations_length_0 :
  (∀ p : PasswordInfo,
     length p = 0%nat → calc_password_combinations p = 1)
  ∧ calc_password_combinations
      (mkPasswordInfo 0 false false false false false false 0) = 1
  ∧ weight_sum (mkPasswordInfo 0 false false false false false false 0) = 0.
Proof.
  split; [| split; reflexivity].
  intros p Hlen. rewrite calc_password_combinations_eq, Hlen.
  apply Z.pow_0_r.
Qed.

Lemma calc_password_combinations_length_0_witness :
  calc_password_combinations
    (mkPasswordInfo 0 true true false false false true 3) = 1.
Proof.
  apply (proj1 calc_password_combinations_length_0
           (mkPasswordInfo 0 true true false false false true 3)).
  reflexivity.
Defined.

(** ** Security tiers *)

Lemma Qle_bool_reflect (x y : Q) : reflect (x <= y)%Q (Qle_bool x y).
Proof. apply iff_reflect. symmetry. apply Qle_bool_iff. Qed.

Lemma Qlt_bool_reflect (x y : Q) : reflect (x < y)%Q (Qlt_bool x y).
Proof.
  unfold Qlt_bool. destruct (Qle_bool_reflect y x) as [Hle | Hnle]; simpl.
  - right. by apply Qle_not_lt.
  - left. by apply Qnot_le_lt.
Qed.

(** Case analysis on every comparison of the goal. *)
Ltac compare_all :=
  repeat match goal with
  | |- context [Qle_bool ?x ?y] => destruct (Qle_bool_reflect x y); simpl
  | |- context [Qlt_bool ?x ?y] => destruct (Qlt_bool_reflect x y); simpl
  end.

(** C2: for non-negative seconds and strictly ascending thresholds the
    call stores exactly one tier of 0..4 in the profile and leaves the
    rest of it alone, and each tier is stored exactly on its own
    interval: up to T0, (T0, T1], (T1, T2], (T2, T3], and above T3.
    With thresholds 1, 3600, 86400, 31536000, half a second gives tier 0
    and 31536001 seconds give tier 4. *)
Theorem set_password_security_partition :
  (∀ (s T0 T1 T2 T3 : Q) (p : PasswordInfo),
     (0 <= s)%Q → (T0 < T1)%Q → (T1 < T2)%Q → (T2 < T3)%Q →
     ∃ p' : PasswordInfo,
       set_password_security [T0; T1; T2; T3] s p = Ok p'
       ∧ same_profile p p'
       ∧ 0 ≤ security p' ≤ 4
       ∧ (security p' = 0 ↔ (s <= T0)%Q)
       ∧ (security p' = 1 ↔ (T0 < s)%Q ∧ (s <= T1)%Q)
       ∧ (security p' = 2 ↔ (T1 < s)%Q ∧ (s <= T2)%Q)
       ∧ (security p' = 3 ↔ (T2 < s)%Q ∧ (s <= T3)%Q)
       ∧ (security p' = 4 ↔ (T3 < s)%Q))
  ∧ (∀ p : PasswordInfo,
       ∃ p0 p4 : PasswordInfo,
         set_password_security [1; 3600; 86400; 31536000]%Q (1 # 2) p
         = Ok p0
         ∧ security p0 = 0
         ∧ set_password_security [1; 3600; 86400; 31536000]%Q 31536001 p
           = Ok p4
         ∧ security p4 = 4).
Proof.
  split.
  - intros s T0 T1 T2 T3 p Hs H01 H12 H23.
    unfold set_password_security, getitem; simpl.
    compare_all; eexists; (split; [reflexivity |]);
      (split; [unfold same_profile; simpl; tauto |]); simpl;
      (split; [lia |]);
      repeat split; intros; try lia; try lra.
  - intros p. exists (set_security p 0), (set_security p 4).
    repeat split.
Qed.

Lemma set_password_security_partition_witness :
  ∃ p' : PasswordInfo,
    set_password_security [1; 3600; 86400; 31536000]%Q 7200 init = Ok p'
    ∧ same_profile init p'
    ∧ 0 ≤ security p' ≤ 4
    ∧ (security p' = 0 ↔ (7200 <= 1)%Q)
    ∧ (security p' = 1 ↔ (1 < 7200)%Q ∧ (7200 <= 3600)%Q)
    ∧ (security p' = 2 ↔ (3600 < 7200)%Q ∧ (7200 <= 86400)%Q)
    ∧ (security p' = 3 ↔ (86400 < 7200)%Q ∧ (7200 <= 31536000)%Q)
    ∧ (security p' = 4 ↔ (31536000 < 7200)%Q).
Proof.
  apply (proj1 set_password_security_partition
           7200%Q 1%Q 3600%Q 86400%Q 31536000%Q init);
    unfold Qle, Qlt; simpl; lia.
Defined.

Example set_password_security_7200 :
  set_password_security [1; 3600; 86400; 31536000]%Q 7200 init
  = Ok (set_security init 2).
Proof. reflexivity. Qed.

(** C10: a strictly negative break time is given tier 4: the profile
    comes back with [security] equal to 4 and is otherwise unchanged.
    The first branch asks for [0 <= bruteforce_time]; the lower bounds
    of the three middle branches are the first three thresholds, which
    a negative time cannot exceed when they are non-negative. *)
Theorem set_password_security_negative
    (t T0 T1 T2 T3 : Q) (p : PasswordInfo) :
  (t < 0)%Q → (0 <= T0)%Q → (0 <= T1)%Q → (0 <= T2)%Q →
  ∃ p' : PasswordInfo,
    set_password_security [T0; T1; T2; T3] t p = Ok p'
    ∧ security p' = 4
    ∧ same_profile p p'.
Proof.
  intros Ht H0 H1 H2.
  exists (set_security p 4).
  split; [| split; [reflexivity | unfold same_profile; simpl; tauto]].
  unfold set_password_security, getitem; simpl.
  compare_all; try reflexivity; exfalso; lra.
Qed.

Lemma set_password_security_negative_witness :
  ∃ p' : PasswordInfo,
    set_password_security [1; 3600; 86400; 31536000]%Q (-1)
      (mkPasswordInfo 9 true true false false false false 1) = Ok p'
    ∧ security p' = 4
    ∧ same_profile (mkPasswordInfo 9 true true false false false false 1) p'.
Proof.
  apply (set_password_security_negative (-1) 1 3600 86400 31536000
           (mkPasswordInfo 9 true true false false false false 1));
    unfold Qle, Qlt; simpl; lia.
Defined.

(** ** Break time *)

(** C4, as amended.  The combinations are first converted to a float:
    when they are out of the float range the call raises OverflowError,
    whatever the hash rate.  Otherwise a hash rate equal to zero raises
    ZeroDivisionError, and every other hash rate, negative or not, gives
    the float quotient.  No other error is raised. *)
Theorem get_bruteforce_time_spec
    (pass_combinations : Z) (hashrate : float) :
  (∀ combinations : float,
     float_of_int pass_combinations = Ok combinations →
     (is_zero hashrate = false →
      get_bruteforce_time pass_combinations hashrate
      = Ok (SFdiv prec emax combinations hashrate))
     ∧ (is_zero hashrate = true →
        get_bruteforce_time pass_combinations hashrate
        = Err ZeroDivisionError))
  ∧ (float_of_int pass_combinations = Err OverflowError →
     get_bruteforce_time pass_combinations hashrate = Err OverflowError)
  ∧ (∀ e : exception,
       get_bruteforce_time pass_combinations hashrate = Err e →
       e = ZeroDivisionError ∨ e = OverflowError).
Proof.
  unfold get_bruteforce_time, float_truediv.
  split; [| split].
  - intros combinations Hc. rewrite Hc. simpl.
    split; intros Hz; by rewrite Hz.
  - intros Hc. by rewrite Hc.
  - intros e. unfold float_of_int.
    destruct (binary_normalize prec emax pass_combinations 0 false);
      simpl; destruct (is_zero hashrate); intros He;
      inversion He; tauto.
Qed.

(** 3000 / 1000.0 is 3.0, 3000 / 0.0 raises ZeroDivisionError and
    115 ** 150 / 1000.0 raises OverflowError. *)
Lemma get_bruteforce_time_spec_witness :
  get_bruteforce_time 3000 (S754_finite false 8796093022208000 (-43))
  = Ok (S754_finite false 6755399441055744 (-51))
  ∧ get_bruteforce_time 3000 (S754_zero false) = Err ZeroDivisionError
  ∧ get_bruteforce_time (115 ^ 150)
      (S754_finite false 8796093022208000 (-43)) = Err OverflowError.
Proof.
  assert (H3000 : float_of_int 3000
                  = Ok (S754_finite false 6597069766656000 (-41)))
    by (vm_compute; reflexivity).
  assert (Hbig : float_of_int (115 ^ 150) = Err OverflowError)
    by (vm_compute; reflexivity).
  split; [| split].
  - rewrite (proj1 (proj1 (get_bruteforce_time_spec 3000
                             (S754_finite false 8796093022208000 (-43)))
                      _ H3000));
      vm_compute; reflexivity.
  - apply (proj2 (proj1 (get_bruteforce_time_spec 3000 (S754_zero false))
                    _ H3000)).
    vm_compute. reflexivity.
  - apply (proj1 (proj2 (get_bruteforce_time_spec (115 ^ 150)
                           (S754_finite false 8796093022208000 (-43))))).
    exact Hbig.
Defined.

(** C4 as stated fails: with a hash rate of -1.0, which is not above
    0, no error is raised and the call returns the negative time
    -10.0. *)
Lemma get_bruteforce_time_negative_hashrate :
  SFltb (S754_finite true 4503599627370496 (-52)) zero = true
  ∧ (¬ ∃ e, get_bruteforce_time 10
              (S754_finite true 4503599627370496 (-52)) = Err e)
  ∧ ∃ (v : float) (q : Q),
      get_bruteforce_time 10 (S754_finite true 4503599627370496 (-52))
      = Ok v
      ∧ float_value v = Some q ∧ (q == -10)%Q ∧ (q < 0)%Q.
Proof.
  split; [vm_compute; reflexivity |]. split.
  - intros (e & He). vm_compute in He. discriminate He.
  - eexists. eexists. split; [vm_compute; reflexivity |].
    split; [reflexivity |]. split; vm_compute; reflexivity.
Qed.

(** The quotient is rounded: 10 ** 16 / (10 ** 16 - 1) is 1.0. *)
Example get_bruteforce_time_rounds :
  ∃ hashrate,
    float_of_int (10 ^ 16 - 1) = Ok hashrate
    ∧ get_bruteforce_time (10 ^ 16) hashrate = Ok one.
Proof. eexists. split; vm_compute; reflexivity. Qed.

(** The largest int that converts, and the first that does not. *)
Example float_of_int_range :
  float_of_int (2 ^ 1024 - 2 ^ 970 - 1)
  = Ok (S754_finite false 9007199254740991 971)
  ∧ float_of_int (2 ^ 1024 - 2 ^ 970) = Err OverflowError.
Proof. split; vm_compute; reflexivity. Qed.

(** ** Suggestions *)

Lemma password_improvements_weak (p : PasswordInfo) :
  security p ≠ 4 →
  password_improvements p = weakness (security p) ++ property_checks p.
Proof.
  intros Hne. unfold password_improvements, weakness.
  destruct (Z.eqb_spec (security p) 4) as [|_]; [contradiction |].
  unfold property_checks, when, append, TIER_0, TIER_1, TIER_2, TIER_3.
  destruct (security p =? 0), (security p =? 1), (security p =? 2),
    (security p =? 3), (length p <? 12)%nat, (digits p), (lower p),
    (upper p), (highcompsymb p), (medcompsymb p), (lowcompsymb p);
    reflexivity.
Qed.

(** C3: tier 4 yields the single already-strong message.  Any tier of
    0..3 yields its own weakness message first and then, in this order,
    the messages of the checks that hold: length under 12, no digits, no
    lowercase, no uppercase, no symbol of any of the three classes.  A
    tier-2, length-6, digits-only profile yields the tier-2 message, the
    length message, and the lowercase, uppercase and symbol messages. *)
Theorem password_improvements_spec :
  (∀ p : PasswordInfo,
     (security p = 4 → password_improvements p = [ALREADY_STRONG])
     ∧ (security p = 0 →
        password_improvements p = TIER_0 :: property_checks p)
     ∧ (security p = 1 →
        password_improvements p = TIER_1 :: property_checks p)
     ∧ (security p = 2 →
        password_improvements p = TIER_2 :: property_checks p)
     ∧ (security p = 3 →
        password_improvements p = TIER_3 :: property_checks p))
  ∧ password_improvements
      (mkPasswordInfo 6 true false false false false false 2)
    = [TIER_2; TOO_SHORT; NO_LOWER; NO_UPPER; NO_SYMBOLS].
Proof.
  split; [| reflexivity].
  intros p. split; [| repeat split]; intros Hsec.
  - unfold password_improvements. rewrite Hsec. reflexivity.
  - rewrite password_improvements_weak, Hsec by lia. reflexivity.
  - rewrite password_improvements_weak, Hsec by lia. reflexivity.
  - rewrite password_improvements_weak, Hsec by lia. reflexivity.
  - rewrite password_improvements_weak, Hsec by lia. reflexivity.
Qed.

Lemma password_improvements_spec_witness :
  password_improvements
    (mkPasswordInfo 14 true true false false true false 3)
  = TIER_3 :: property_checks
                (mkPasswordInfo 14 true true false false true false 3)
  ∧ password_improvements
      (mkPasswordInfo 14 true true true true false false 4)
    = [ALREADY_STRONG].
Proof.
  split.
  - apply (proj1 password_improvements_spec
             (mkPasswordInfo 14 true true false false true false 3)).
    reflexivity.
  - apply (proj1 password_improvements_spec
             (mkPasswordInfo 14 true true true true false false 4)).
    reflexivity.
Defined.

Example password_improvements_tier_3 :
  password_improvements
    (mkPasswordInfo 14 true true false false true false 3)
  = [TIER_3; NO_UPPER].
Proof. reflexivity. Qed.

(** An integer outside 0..4 gets no tier message at all. *)
Example password_improvements_no_tier :
  password_improvements
    (mkPasswordInfo 14 true true false false true false 7)
  = [NO_UPPER].
Proof. reflexivity. Qed.

(** ** Durations *)

Lemma py_int_nonneg (x : Q) : (0 <= x)%Q → py_int x = Qfloor x.
Proof.
  destruct x as [n d]. unfold Qle, py_int, Qfloor. simpl. intros Hn.
  apply Z.quot_div_nonneg; lia.
Qed.

Lemma py_int_floordiv (x : Q) (y : Z) :
  py_int (floordiv x y) = Qfloor (x / inject_Z y).
Proof. unfold py_int, floordiv. simpl. apply Z.quot_1_r. Qed.

Lemma unit_choice (n : Z) (singular plural : string) :
  pretty n +:+ " " +:+ (if n =? 1 then singular else plural)
  = duration_text n singular plural.
Proof.
  unfold duration_text.
  destruct (Z.eqb_spec n 1), (decide (n = 1)); done.
Qed.

Lemma space_in_app (a b : string) :
  In " "%char (list_ascii_of_string (a +:+ " " +:+ b)).
Proof. induction a as [|c a IH]; simpl; [left | right]; done. Qed.

Lemma duration_text_not_instant (n : Z) (singular plural : string) :
  duration_text n singular plural ≠ "Instantáneo".
Proof.
  intros Heq.
  pose proof (space_in_app (pretty n)
                (if decide (n = 1) then singular else plural)) as Hin.
  unfold duration_text in Heq. rewrite Heq in Hin.
  simpl in Hin. intuition discriminate.
Qed.

Lemma secs_to_time_cases (seconds : Q) :
  secs_to_time seconds =
  if Qlt_bool seconds 1 then "Instantáneo"
  else if Qlt_bool seconds 60 then
    duration_text (py_int seconds) "segundo" "segundos"
  else if Qlt_bool seconds 3600 then
    duration_text (py_int (floordiv seconds 60)) "minuto" "minutos"
  else if Qlt_bool seconds 86400 then
    duration_text (py_int (floordiv seconds 3600)) "hora" "horas"
  else if Qlt_bool seconds 2592000 then
    duration_text (py_int (floordiv seconds 604800)) "semana" "semanas"
  else if Qlt_bool seconds 31536000 then
    duration_text (py_int (floordiv seconds 2592000)) "mes" "meses"
  else
    duration_text (py_int (floordiv seconds 31536000)) "año" "años".
Proof. rewrite <- !unit_choice. reflexivity. Qed.









(** Floats below the range where the quotient rounds: 0.5, 59.5, 179.5,
    90000.0 and 63072000.0 seconds; then 1e30 seconds. *)
Example secs_to_time_float_examples :
  secs_to_time_float (S754_finite false 4503599627370496 (-53))
  = Ok "Instantáneo"
  ∧ secs_to_time_float (S754_finite false 8373880557142016 (-47))
    = Ok "59 segundos"
  ∧ secs_to_time_float (S754_finite false 6315594789945344 (-45))
    = Ok "2 minutos"
  ∧ secs_to_time_float (S754_finite false 6184752906240000 (-36))
    = Ok "0 semanas"
  ∧ secs_to_time_float (S754_finite false 8465380540416000 (-27))
    = Ok "2 años"
  ∧ secs_to_time_float (S754_finite false 7105427357601002 47)
    = Ok "31709791983764588462080 años".
Proof. repeat split; vm_compute; reflexivity. Qed.

(** A NaN and the positive infinity are below no bound, and their
    quotient by a year is a NaN, which [int] refuses: the call raises. *)
Example secs_to_time_float_nan :
  (∀ text, secs_to_time_float S754_nan ≠ Ok text)
  ∧ (∀ text, secs_to_time_float (S754_infinity false) ≠ Ok text).
Proof. split; intros text Heq; vm_compute in Heq; discriminate Heq. Qed.

Example secs_to_time_half : secs_to_time (1 # 2) = "Instantáneo".
Proof. reflexivity. Qed.

Example secs_to_time_one : secs_to_time 1 = "1 segundo".
Proof. reflexivity. Qed.

Example secs_to_time_minutes : secs_to_time (359 # 2) = "2 minutos".
Proof. reflexivity. Qed.

Example secs_to_time_hours : secs_to_time 7200 = "2 horas".
Proof. reflexivity. Qed.

(** From one day up to one week the count of weeks is 0. *)
Example secs_to_time_day : secs_to_time 90000 = "0 semanas".
Proof. reflexivity. Qed.

Example secs_to_time_week : secs_to_time 700000 = "1 semana".
Proof. reflexivity. Qed.

Example secs_to_time_month : secs_to_time 2592000 = "1 mes".
Proof. reflexivity. Qed.

Example secs_to_time_years : secs_to_time 63072000 = "2 años".
Proof. reflexivity. Qed.

(** * Further properties of the modelled code *)

(** ** The character tables *)

Lemma VALID_PASS_CHARS_code (c : ascii) :
  bool_decide (c ∈ VALID_PASS_CHARS)
  = ((33 <=? nat_of_ascii c)%nat && (nat_of_ascii c <=? 126)%nat).
Proof. destruct c as [[] [] [] [] [] [] [] []]; vm_compute; reflexivity. Qed.

Lemma VALID_PASS_CHARS_printable (c : ascii) :
  c ∈ VALID_PASS_CHARS ↔ printable c.
Proof.
  rewrite <- (bool_decide_eq_true (c ∈ VALID_PASS_CHARS)).
  rewrite VALID_PASS_CHARS_code, andb_true_iff.
  rewrite Nat.leb_le, Nat.leb_le. reflexivity.
Qed.

Lemma is_password_vaild_Forall (s : string) :
  is_password_vaild s = true
  ↔ Forall (λ c, c ∈ VALID_PASS_CHARS) (list_ascii_of_string s).
Proof.
  unfold is_password_vaild. rewrite py_all_true.
  apply Forall_iff. intros c. apply bool_decide_eq_true.
Qed.

(** X1: a password is valid exactly when each of its characters is a
    printable ASCII character other than the space (codes 33 to 126);
    the six tables together hold all 94 of them. *)
Theorem is_password_vaild_printable (s : string) :
  (is_password_vaild s = true
     ↔ Forall printable (list_ascii_of_string s))
  ∧ size VALID_PASS_CHARS = 94%nat.
Proof.
  split; [| vm_compute; reflexivity].
  rewrite is_password_vaild_Forall.
  apply Forall_iff. intros c. apply VALID_PASS_CHARS_printable.
Qed.
Lemma class_count_code (c : ascii) :
  class_count c
  = if bool_decide (c ∈ VALID_PASS_CHARS) then 1%nat else 0%nat.
Proof. destruct c as [[] [] [] [] [] [] [] []]; vm_compute; reflexivity. Qed.

(** X2: the six class tables are pairwise disjoint: a character lies in
    at most one of them, and in exactly one when it is a valid password
    character. *)
Theorem classes_disjoint (c : ascii) :
  (class_count c ≤ 1)%nat
  ∧ (class_count c = 1%nat ↔ c ∈ VALID_PASS_CHARS).
Proof.
  rewrite class_count_code.
  case_bool_decide; (split; [lia | split; intros; (done || lia)]).
Qed.

Lemma py_any_app {A} (f : A → bool) (l1 l2 : list A) :
  py_any f (l1 ++ l2) = py_any f l1 || py_any f l2.
Proof.
  induction l1 as [|x l1 IH]; simpl; [done |].
  destruct (f x); [done | exact IH].
Qed.

Lemma py_all_app {A} (f : A → bool) (l1 l2 : list A) :
  py_all f (l1 ++ l2) = py_all f l1 && py_all f l2.
Proof.
  induction l1 as [|x l1 IH]; simpl; [done |].
  destruct (f x); [exact IH | done].
Qed.

Lemma list_ascii_of_string_app (a b : string) :
  list_ascii_of_string (a +:+ b)
  = list_ascii_of_string a ++ list_ascii_of_string b.
Proof. induction a as [|c a IH]; simpl; [done | by rewrite IH]. Qed.

(** X3: looking for a class in a concatenation is looking in either
    part, and looking for a union of two classes is looking for either
    class. *)
Theorem password_has_chartype_compose `{Countable char}
    (p1 p2 : list char) (s1 s2 : gset char) :
  password_has_chartype (p1 ++ p2) s1
  = password_has_chartype p1 s1 || password_has_chartype p2 s1
  ∧ password_has_chartype p1 (s1 ∪ s2)
    = password_has_chartype p1 s1 || password_has_chartype p1 s2.
Proof.
  unfold password_has_chartype. split; [apply py_any_app |].
  induction p1 as [|c p1 IH]; simpl; [done |].
  rewrite IH. clear IH.
  rewrite (bool_decide_ext _ _ (elem_of_union s1 s2 c)), bool_decide_or.
  destruct (bool_decide (c ∈ s1)), (bool_decide (c ∈ s2)); simpl;
    [done | done | by rewrite orb_true_r | done].
Qed.

(** X4: validity splits over concatenation, and the empty password
    passes the character check. *)
Theorem is_password_vaild_app (a b : string) :
  is_password_vaild (a +:+ b) = is_password_vaild a && is_password_vaild b
  ∧ is_password_vaild "" = true.
Proof.
  split; [| reflexivity].
  unfold is_password_vaild.
  by rewrite list_ascii_of_string_app, py_all_app.
Qed.

(** ** Profiles and combinations *)

Lemma password_has_chartype_true `{Countable char}
    (password : list char) (char_list : gset char) :
  password_has_chartype password char_list = true
  ↔ ∃ c, c ∈ password ∧ c ∈ char_list.
Proof.
  unfold password_has_chartype. rewrite py_any_true.
  split; intros (c & Hc & Hin); exists c; split; try done.
  - by apply bool_decide_eq_true in Hin.
  - by apply bool_decide_eq_true.
Qed.

Lemma length_list_ascii_of_string (s : string) :
  List.length (list_ascii_of_string s) = String.length s.
Proof. induction s as [|c s IH]; simpl; [done | by rewrite IH]. Qed.

Lemma has_category_analyze (s : string) (p : PasswordInfo) :
  has_category (analyze_password_props s p)
  ↔ ∃ c, c ∈ list_ascii_of_string s ∧ c ∈ VALID_PASS_CHARS.
Proof.
  unfold has_category, analyze_password_props. simpl.
  rewrite !orb_true_iff, !password_has_chartype_true.
  split.
  - intros [[[[[H|H]|H]|H]|H]|H]; destruct H as (c & Hc & Hin);
      exists c; (split; [done |]); apply VALID_PASS_CHARS_spec;
      unfold in_defined_class; tauto.
  - intros (c & Hc & Hin). apply VALID_PASS_CHARS_spec in Hin.
    destruct Hin as [H|[H|[H|[H|[H|H]]]]]; eauto 10.
Qed.

(** X5: the analysis of a password finds a category exactly when some
    character of the password is a valid password character; so it
    finds none in the empty password and at least one in every
    non-empty valid password. *)
Theorem analyze_password_props_category (s : string) (p : PasswordInfo) :
  (has_category (analyze_password_props s p)
     ↔ ∃ c, c ∈ list_ascii_of_string s ∧ c ∈ VALID_PASS_CHARS)
  ∧ ¬ has_category (analyze_password_props "" p)
  ∧ (is_password_vaild s = true → s ≠ "" →
     has_category (analyze_password_props s p)).
Proof.
  split; [apply has_category_analyze | split].
  - rewrite has_category_analyze. intros (c & Hc & _). inversion Hc.
  - intros Hvalid Hne. apply has_category_analyze.
    apply is_password_vaild_Forall in Hvalid.
    destruct s as [|c s]; [done |]. simpl in *.
    exists c. split; [left | by apply Forall_inv in Hvalid].
Qed.

Lemma analyze_password_props_category_witness :
  has_category (analyze_password_props "a1" init).
Proof.
  apply (proj2 (proj2 (analyze_password_props_category "a1" init)));
    [reflexivity | discriminate].
Defined.

Lemma weight_sum_le (p : PasswordInfo) : weight_sum p ≤ 115.
Proof.
  unfold weight_sum, slot.
  destruct (digits p), (lower p), (upper p), (highcompsymb p),
    (medcompsymb p), (lowcompsymb p); lia.
Qed.

Lemma weight_sum_category (p : PasswordInfo) :
  has_category p → 8 ≤ weight_sum p.
Proof.
  unfold has_category, weight_sum, slot.
  destruct (digits p), (lower p), (upper p), (highcompsymb p),
    (medcompsymb p), (lowcompsymb p); simpl; intros; (lia || discriminate).
Qed.

Lemma weight_sum_0 (p : PasswordInfo) :
  weight_sum p = 0 ↔ ¬ has_category p.
Proof.
  unfold has_category, weight_sum, slot.
  destruct (digits p), (lower p), (upper p), (highcompsymb p),
    (medcompsymb p), (lowcompsymb p); simpl;
    (split; [intros; (lia || discriminate)
            | intros Hn; (lia || (exfalso; by apply Hn))]).
Qed.

(** X6: the estimate lies between 0 and 115 to the power of the length
    (115 is the sum of all six slot weights); it is 0 exactly for a
    profile of positive length without any category; with a category
    present it is at least 8 to the power of the length. *)
Theorem calc_password_combinations_bounds (p : PasswordInfo) :
  0 ≤ calc_password_combinations p ≤ 115 ^ Z.of_nat (length p)
  ∧ (calc_password_combinations p = 0
       ↔ ¬ has_category p ∧ (0 < length p)%nat)
  ∧ (has_category p →
     8 ^ Z.of_nat (length p) ≤ calc_password_combinations p).
Proof.
  rewrite calc_password_combinations_eq.
  pose proof (weight_sum_nonneg p) as H0.
  pose proof (weight_sum_le p) as H115.
  split; [split |split].
  - apply Z.pow_nonneg. lia.
  - apply Z.pow_le_mono_l. lia.
  - rewrite Z.pow_eq_0_iff, weight_sum_0. split.
    + intros [Hneg | [Hpos Hw]]; [lia | split; [done | lia]].
    + intros [Hn Hpos]. right. split; [lia | done].
  - intros Hcat. apply Z.pow_le_mono_l.
    pose proof (weight_sum_category p Hcat). lia.
Qed.

Lemma calc_password_combinations_bounds_witness :
  8 ^ Z.of_nat 3
  ≤ calc_password_combinations
      (mkPasswordInfo 3 false false false true false false 0).
Proof.
  apply (proj2 (proj2 (calc_password_combinations_bounds
           (mkPasswordInfo 3 false false false true false false 0)))).
  reflexivity.
Defined.

(** X7: for a non-empty valid password the estimate of its analysed
    profile lies between 8 and 115, each raised to the number of
    characters of the password; in particular it is positive. *)
Theorem valid_password_combinations (s : string) (p : PasswordInfo) :
  is_password_vaild s = true → s ≠ "" →
  8 ^ Z.of_nat (String.length s)
  ≤ calc_password_combinations (analyze_password_props s p)
  ≤ 115 ^ Z.of_nat (String.length s).
Proof.
  intros Hvalid Hne.
  assert (Hcat : has_category (analyze_password_props s p)).
  { apply has_category_analyze.
    apply is_password_vaild_Forall in Hvalid.
    destruct s as [|c s]; [done |]. simpl in *.
    exists c. split; [left | by apply Forall_inv in Hvalid]. }
  rewrite calc_password_combinations_eq.
  replace (length (analyze_password_props s p)) with (String.length s)
    by (symmetry; apply length_list_ascii_of_string).
  split; apply Z.pow_le_mono_l.
  - pose proof (weight_sum_category _ Hcat). lia.
  - pose proof (weight_sum_le (analyze_password_props s p)).
    pose proof (weight_sum_nonneg (analyze_password_props s p)). lia.
Qed.

Lemma valid_password_combinations_witness :
  8 ^ Z.of_nat (String.length "aB3$")
  ≤ calc_password_combinations (analyze_password_props "aB3$" init)
  ≤ 115 ^ Z.of_nat (String.length "aB3$").
Proof.
  apply (valid_password_combinations "aB3$" init);
    [reflexivity | discriminate].
Defined.

(** ** Tiers, colours and the break time *)

Lemma set_security_inj (p : PasswordInfo) (a b : Z) :
  Ok (set_security p a) = Ok (set_security p b) → a = b.
Proof. intros Heq. by inversion Heq. Qed.

Lemma set_password_security_four
    (LIMITS : list Q) (t : Q) (p : PasswordInfo) :
  (4 ≤ List.length LIMITS)%nat →
  ∃ tier, is_tier tier
          ∧ set_password_security LIMITS t p = Ok (set_security p tier).
Proof.
  intros Hlen.
  destruct LIMITS as [|T0 [|T1 [|T2 [|T3 rest]]]]; simpl in Hlen; try lia.
  unfold set_password_security, getitem, is_tier; simpl.
  compare_all; eexists; (split; [| reflexivity]); lia.
Qed.



(** With ascending thresholds the tier of a non-negative time counts
    the thresholds the time exceeds. *)
Lemma set_password_security_count
    (T0 T1 T2 T3 s : Q) (p : PasswordInfo) :
  (T0 <= T1)%Q → (T1 <= T2)%Q → (T2 <= T3)%Q → (0 <= s)%Q →
  ∃ tier : Z,
    set_password_security [T0; T1; T2; T3] s p = Ok (set_security p tier)
    ∧ 0 ≤ tier ≤ 4
    ∧ (1 ≤ tier ↔ (T0 < s)%Q) ∧ (2 ≤ tier ↔ (T1 < s)%Q)
    ∧ (3 ≤ tier ↔ (T2 < s)%Q) ∧ (4 ≤ tier ↔ (T3 < s)%Q).
Proof.
  intros H01 H12 H23 Hs.
  unfold set_password_security, getitem; simpl.
  compare_all; eexists; (split; [reflexivity |]); (split; [lia |]);
    repeat split; intros; try lia; try lra.
Qed.

(** X9: with ascending thresholds a longer non-negative break time
    never gets a lower tier. *)
Theorem set_password_security_mono
    (T0 T1 T2 T3 s s' : Q) (p : PasswordInfo) :
  (T0 <= T1)%Q → (T1 <= T2)%Q → (T2 <= T3)%Q →
  (0 <= s)%Q → (s <= s')%Q →
  ∃ a b : Z,
    set_password_security [T0; T1; T2; T3] s p = Ok (set_security p a)
    ∧ set_password_security [T0; T1; T2; T3] s' p = Ok (set_security p b)
    ∧ a ≤ b.
Proof.
  intros H01 H12 H23 Hs Hss.
  assert (Hs' : (0 <= s')%Q) by lra.
  destruct (set_password_security_count T0 T1 T2 T3 s p H01 H12 H23 Hs)
    as (a & Ha & Ha4 & Ha0 & Ha1 & Ha2 & Ha3).
  destruct (set_password_security_count T0 T1 T2 T3 s' p H01 H12 H23 Hs')
    as (b & Hb & Hb4 & Hb0 & Hb1 & Hb2 & Hb3).
  exists a, b. split; [done | split; [done |]].
  assert (H1 : 1 ≤ a → 1 ≤ b) by (rewrite Ha0, Hb0; lra).
  assert (H2 : 2 ≤ a → 2 ≤ b) by (rewrite Ha1, Hb1; lra).
  assert (H3 : 3 ≤ a → 3 ≤ b) by (rewrite Ha2, Hb2; lra).
  assert (H4 : 4 ≤ a → 4 ≤ b) by (rewrite Ha3, Hb3; lra).
  lia.
Qed.

Lemma set_password_security_mono_witness :
  ∃ a b : Z,
    set_password_security [1; 3600; 86400; 31536000]%Q 30 init
    = Ok (set_security init a)
    ∧ set_password_security [1; 3600; 86400; 31536000]%Q 90000 init
      = Ok (set_security init b)
    ∧ a ≤ b.
Proof.
  apply (set_password_security_mono 1 3600 86400 31536000 30 90000 init);
    unfold Qle; simpl; lia.
Defined.

(** X10: with fewer than four thresholds, a non-negative time above all
    of them raises IndexError: it is not passed off as the top tier. *)
Theorem set_password_security_short
    (LIMITS : list Q) (t : Q) (p : PasswordInfo) :
  (List.length LIMITS < 4)%nat → (0 <= t)%Q →
  Forall (λ T, (T < t)%Q) LIMITS →
  set_password_security LIMITS t p = Err IndexError.
Proof.
  intros Hlen Ht Hall.
  destruct LIMITS as [|T0 [|T1 [|T2 [|T3 rest]]]]; simpl in Hlen; try lia;
    repeat match goal with
    | H : Forall _ (_ :: _) |- _ =>
        let Hx := fresh "Hx" in
        pose proof (Forall_inv H) as Hx; apply Forall_inv_tail in H;
        simpl in Hx
    end;
    unfold set_password_security, getitem; simpl;
    compare_all; try reflexivity; exfalso; lra.
Qed.

Lemma set_password_security_short_witness :
  set_password_security [1; 3600; 86400]%Q 90000 init = Err IndexError.
Proof.
  apply (set_password_security_short [1; 3600; 86400]%Q 90000 init).
  - simpl. lia.
  - unfold Qle. simpl. lia.
  - repeat constructor.
Defined.

Lemma get_security_color_cases (t : Z) :
  get_security_color t =
  if decide (t = 0) then "M" else if decide (t = 1) then "R"
  else if decide (t = 2) then "Y" else if decide (t = 3) then "C"
  else if decide (t = 4) then "G" else "RST".
Proof.
  unfold get_security_color.
  repeat (case_decide; [subst; reflexivity |]).
  rewrite !lookup_insert_ne by done. by rewrite lookup_singleton_ne.
Qed.

(** X11: the colour is the fallback [RST] exactly for an integer that is
    no tier, and two different tiers never share a colour. *)
Theorem get_security_color_tiers :
  (∀ t : Z, get_security_color t = "RST" ↔ ¬ is_tier t)
  ∧ (∀ a b : Z, is_tier a → is_tier b → a ≠ b →
       get_security_color a ≠ get_security_color b).
Proof.
  unfold is_tier. split.
  - intros t. rewrite get_security_color_cases.
    repeat case_decide; (split; [intros Heq; (discriminate Heq || lia)
                                | intros Hn; (done || lia)]).
  - intros a b Ha Hb Hne. rewrite !get_security_color_cases.
    repeat case_decide; intros Heq; (discriminate Heq || lia).
Qed.

Lemma get_security_color_tiers_witness :
  get_security_color 1 ≠ get_security_color 3.
Proof.
  apply (proj2 get_security_color_tiers 1 3); unfold is_tier; lia.
Defined.

(** X12: after a classification against four thresholds or more, the
    colour of the stored tier is one of M, R, Y, C, G and never the
    fallback. *)
Theorem classified_color (LIMITS : list Q) (t : Q) (p : PasswordInfo) :
  (4 ≤ List.length LIMITS)%nat →
  ∃ p', set_password_security LIMITS t p = Ok p'
        ∧ get_security_color (security p') ∈ ["M"; "R"; "Y"; "C"; "G"]
        ∧ get_security_color (security p') ≠ "RST".
Proof.
  intros Hlen.
  destruct (set_password_security_four LIMITS t p Hlen)
    as (tier & Htier & Hset).
  exists (set_security p tier). split; [exact Hset |].
  simpl. rewrite get_security_color_cases. unfold is_tier in Htier.
  repeat case_decide; try lia;
    (split; [set_unfold; tauto | discriminate]).
Qed.

Lemma classified_color_witness :
  ∃ p', set_password_security [1; 3600; 86400; 31536000]%Q 90000 init
        = Ok p'
        ∧ get_security_color (security p') ∈ ["M"; "R"; "Y"; "C"; "G"]
        ∧ get_security_color (security p') ≠ "RST".
Proof.
  apply (classified_color [1; 3600; 86400; 31536000]%Q 90000 init).
  simpl. lia.
Defined.

(** ** Suggestions *)

Lemma elem_of_when (m : string) (b : bool) (m' : string) :
  m ∈ when b m' ↔ b = true ∧ m = m'.
Proof.
  destruct b; simpl.
  - rewrite list_elem_of_singleton. tauto.
  - split; [intros Hin; inversion Hin | intros [Hf _]; discriminate].
Qed.

Lemma elem_of_property_checks (m : string) (p : PasswordInfo) :
  m ∈ property_checks p
  ↔ ((length p < 12)%nat ∧ m = TOO_SHORT)
    ∨ (digits p = false ∧ m = NO_DIGITS)
    ∨ (lower p = false ∧ m = NO_LOWER)
    ∨ (upper p = false ∧ m = NO_UPPER)
    ∨ ((highcompsymb p = false ∧ medcompsymb p = false
        ∧ lowcompsymb p = false) ∧ m = NO_SYMBOLS).
Proof.
  unfold property_checks. rewrite !elem_of_app, !elem_of_when.
  rewrite Nat.ltb_lt, !andb_true_iff, !negb_true_iff. tauto.
Qed.

Lemma elem_of_weakness (m : string) (t : Z) :
  m ∈ weakness t → m = TIER_0 ∨ m = TIER_1 ∨ m = TIER_2 ∨ m = TIER_3.
Proof.
  unfold weakness.
  repeat case_match; rewrite ?list_elem_of_singleton; try tauto.
  intros Hin. inversion Hin.
Qed.

Ltac distinct_messages :=
  unfold ALREADY_STRONG, TIER_0, TIER_1, TIER_2, TIER_3, TOO_SHORT,
    NO_DIGITS, NO_LOWER, NO_UPPER, NO_SYMBOLS in *;
  try discriminate; try congruence.

(** X13: which suggestion appears when.  The already-strong message
    appears exactly for tier 4; each of the five property messages
    appears exactly when the tier is not 4 and its own condition holds,
    so a tier-4 password gets no property suggestion whatever it
    lacks. *)
Theorem password_improvements_membership (p : PasswordInfo) :
  (ALREADY_STRONG ∈ password_improvements p ↔ security p = 4)
  ∧ (TOO_SHORT ∈ password_improvements p
       ↔ security p ≠ 4 ∧ (length p < 12)%nat)
  ∧ (NO_DIGITS ∈ password_improvements p
       ↔ security p ≠ 4 ∧ digits p = false)
  ∧ (NO_LOWER ∈ password_improvements p
       ↔ security p ≠ 4 ∧ lower p = false)
  ∧ (NO_UPPER ∈ password_improvements p
       ↔ security p ≠ 4 ∧ upper p = false)
  ∧ (NO_SYMBOLS ∈ password_improvements p
       ↔ security p ≠ 4 ∧ highcompsymb p = false
         ∧ medcompsymb p = false ∧ lowcompsymb p = false).
Proof.
  destruct (decide (security p = 4)) as [H4 | H4].
  - assert (Hstrong : password_improvements p = [ALREADY_STRONG]).
    { unfold password_improvements. rewrite H4. reflexivity. }
    rewrite Hstrong, !list_elem_of_singleton.
    repeat split; try tauto; intros; distinct_messages.
  - assert (Hin : ∀ m, m ≠ TIER_0 → m ≠ TIER_1 → m ≠ TIER_2 → m ≠ TIER_3 →
                   (m ∈ password_improvements p ↔ m ∈ property_checks p)).
    { intros m H0 H1 H2 H3.
      rewrite (password_improvements_weak p H4), elem_of_app.
      split; [intros [Hw | Hc]; [| done] | tauto].
      apply elem_of_weakness in Hw. tauto. }
    rewrite !Hin by distinct_messages.
    rewrite !elem_of_property_checks.
    repeat apply conj;
      try (intros [[? Hm] | [[? Hm] | [[? Hm] | [[? Hm] | [? Hm]]]]];
           first [tauto | exfalso; distinct_messages]);
      intros; intuition auto.
Qed.

Example password_improvements_strong_short :
  password_improvements
    (mkPasswordInfo 3 false true false false false false 4)
  = [ALREADY_STRONG].
Proof. reflexivity. Qed.

Lemma weakness_tier (t : Z) :
  0 ≤ t ≤ 3 → List.length (weakness t) = 1%nat.
Proof.
  intros Ht. unfold weakness.
  destruct (Z.eqb_spec t 0), (Z.eqb_spec t 1), (Z.eqb_spec t 2),
    (Z.eqb_spec t 3); simpl; lia.
Qed.

Lemma weakness_shape (t : Z) :
  NoDup (weakness t) ∧ (List.length (weakness t) ≤ 1)%nat.
Proof.
  unfold weakness.
  repeat case_match; simpl; (split; [| lia]);
    try apply NoDup_singleton; apply NoDup_nil_2.
Qed.

Lemma property_checks_shape (p : PasswordInfo) :
  NoDup (property_checks p) ∧ (List.length (property_checks p) ≤ 5)%nat.
Proof.
  unfold property_checks, when.
  destruct (length p <? 12)%nat, (digits p), (lower p), (upper p),
    (highcompsymb p), (medcompsymb p), (lowcompsymb p); simpl;
    (split; [apply (bool_decide_unpack _); vm_compute; exact I | lia]).
Qed.

(** X14: the list of suggestions never repeats a message and never has
    more than six entries; for a tier of 0..4 it has at least one. *)
Theorem password_improvements_shape (p : PasswordInfo) :
  NoDup (password_improvements p)
  ∧ (List.length (password_improvements p) ≤ 6)%nat
  ∧ (is_tier (security p) →
     (1 ≤ List.length (password_improvements p))%nat).
Proof.
  destruct (decide (security p = 4)) as [H4 | H4].
  - assert (Hstrong : password_improvements p = [ALREADY_STRONG]).
    { unfold password_improvements. rewrite H4. reflexivity. }
    rewrite Hstrong. simpl.
    split; [apply NoDup_singleton | split; intros; lia].
  - rewrite (password_improvements_weak p H4), length_app.
    destruct (weakness_shape (security p)) as [Hwn Hwl].
    destruct (property_checks_shape p) as [Hcn Hcl].
    split; [| split].
    + apply NoDup_app. split; [done | split; [| done]].
      intros m Hw Hc. apply elem_of_weakness in Hw.
      apply elem_of_property_checks in Hc.
      destruct Hc as [[? Hm] | [[? Hm] | [[? Hm] | [[? Hm] | [? Hm]]]]];
        subst m; destruct Hw as [Hw | [Hw | [Hw | Hw]]]; distinct_messages.
    + lia.
    + unfold is_tier. intros Ht.
      rewrite (weakness_tier (security p)) by lia. lia.
Qed.

Lemma password_improvements_shape_witness :
  (1 ≤ List.length
         (password_improvements
            (mkPasswordInfo 20 true true true true true true 2)))%nat.
Proof.
  apply (proj2 (proj2 (password_improvements_shape
           (mkPasswordInfo 20 true true true true true true 2)))).
  unfold is_tier. simpl. lia.
Defined.

(** X15: below tier 4, the weakness message stands alone exactly for a
    password of at least 12 characters that has digits, lowercase,
    uppercase and a symbol of some class. *)
Theorem password_improvements_only_tier (p : PasswordInfo) :
  0 ≤ security p ≤ 3 →
  (List.length (password_improvements p) = 1%nat
   ↔ (12 ≤ length p)%nat ∧ digits p = true ∧ lower p = true
     ∧ upper p = true
     ∧ highcompsymb p || medcompsymb p || lowcompsymb p = true).
Proof.
  intros Ht.
  rewrite (password_improvements_weak p) by lia.
  rewrite length_app, (weakness_tier (security p) Ht).
  unfold property_checks, when.
  destruct (Nat.ltb_spec (length p) 12), (digits p), (lower p), (upper p),
    (highcompsymb p), (medcompsymb p), (lowcompsymb p); simpl;
    (split; [intros Hl; try discriminate Hl; repeat split; (done || lia)
            | intros (? & ? & ? & ? & ?); (done || lia)]).
Qed.

Lemma password_improvements_only_tier_witness :
  List.length
    (password_improvements
       (mkPasswordInfo 12 true true true false false true 1)) = 1%nat.
Proof.
  apply (password_improvements_only_tier
           (mkPasswordInfo 12 true true true false false true 1)).
  - simpl. lia.
  - simpl. repeat split. lia.
Defined.

(** ** Durations *)

Lemma Qfloor_bounds (x : Q) (a b : Z) :
  (inject_Z a <= x)%Q → (x < inject_Z b)%Q → a ≤ Qfloor x < b.
Proof.
  intros Ha Hb. split.
  - rewrite <- (Qfloor_Z a). by apply Qfloor_resp_le.
  - rewrite Zlt_Qlt. eapply Qle_lt_trans; [apply Qfloor_le | exact Hb].
Qed.

Lemma Qfloor_div_bounds (x : Q) (u a b : Z) :
  0 < u → (inject_Z (a * u) <= x)%Q → (x < inject_Z (b * u))%Q →
  a ≤ Qfloor (x / inject_Z u) < b.
Proof.
  intros Hu Ha Hb.
  assert (Hu' : (0 < inject_Z u)%Q) by (unfold Qlt; simpl; lia).
  apply Qfloor_bounds.
  - apply Qle_shift_div_l; [exact Hu' |]. by rewrite <- inject_Z_mult.
  - apply Qlt_shift_div_r; [exact Hu' |]. by rewrite <- inject_Z_mult.
Qed.

(** The bounds of a count, from the bounds of the time. *)
Ltac count_bounds x u a b :=
  let lo := eval compute in (a * u) in
  let hi := eval compute in (b * u) in
  apply (Qfloor_div_bounds x u a b);
  [ lia
  | change (inject_Z (a * u)) with (inject_Z lo); unfold inject_Z; lra
  | change (inject_Z (b * u)) with (inject_Z hi); unfold inject_Z; lra ].

(** X16: a time below one second, a negative one included, is written
    with the instant word, and no other time is. *)
Theorem secs_to_time_instant (seconds : Q) :
  (secs_to_time seconds = "Instantáneo" ↔ (seconds < 1)%Q)
  ∧ ((seconds < 0)%Q → secs_to_time seconds = "Instantáneo").
Proof.
  rewrite secs_to_time_cases.
  change (inject_Z 60) with 60%Q.
  destruct (Qlt_bool_reflect seconds 1) as [H1 | H1].
  - split; [tauto | done].
  - split; [| intros Hn; exfalso; lra].
    split; [| intros Hlt; exfalso; lra].
    repeat case_match; intros Hi;
      exfalso; exact (duration_text_not_instant _ _ _ Hi).
Qed.

Lemma secs_to_time_instant_witness :
  secs_to_time (-5) = "Instantáneo".
Proof.
  apply (proj2 (secs_to_time_instant (-5))). reflexivity.
Defined.

(** X17: the text counts seconds from 1 to 59, minutes from 1 to 59,
    hours from 1 to 23, weeks from 0 to 4, months from 1 to 12, and at
    least 1 year. *)
Theorem secs_to_time_counts (seconds : Q) :
  ((1 <= seconds)%Q ∧ (seconds < 60)%Q →
   ∃ n, 1 ≤ n ≤ 59
        ∧ secs_to_time seconds = duration_text n "segundo" "segundos")
  ∧ ((60 <= seconds)%Q ∧ (seconds < 3600)%Q →
     ∃ n, 1 ≤ n ≤ 59
          ∧ secs_to_time seconds = duration_text n "minuto" "minutos")
  ∧ ((3600 <= seconds)%Q ∧ (seconds < 86400)%Q →
     ∃ n, 1 ≤ n ≤ 23
          ∧ secs_to_time seconds = duration_text n "hora" "horas")
  ∧ ((86400 <= seconds)%Q ∧ (seconds < 2592000)%Q →
     ∃ n, 0 ≤ n ≤ 4
          ∧ secs_to_time seconds = duration_text n "semana" "semanas")
  ∧ ((2592000 <= seconds)%Q ∧ (seconds < 31536000)%Q →
     ∃ n, 1 ≤ n ≤ 12
          ∧ secs_to_time seconds = duration_text n "mes" "meses")
  ∧ ((31536000 <= seconds)%Q →
     ∃ n, 1 ≤ n
          ∧ secs_to_time seconds = duration_text n "año" "años").
Proof.
  rewrite secs_to_time_cases, !py_int_floordiv.
  change (inject_Z 60) with 60%Q. change (inject_Z 3600) with 3600%Q.
  change (inject_Z 604800) with 604800%Q.
  change (inject_Z 2592000) with 2592000%Q.
  change (inject_Z 31536000) with 31536000%Q.
  repeat apply conj.
  - intros [Hlo Hhi]. rewrite py_int_nonneg by lra.
    exists (Qfloor seconds). split.
    + pose proof (Qfloor_bounds seconds 1 60 Hlo Hhi). lia.
    + compare_all; try reflexivity; exfalso; lra.
  - intros [Hlo Hhi]. exists (Qfloor (seconds / 60)). split.
    + assert (H : 1 ≤ Qfloor (seconds / 60) < 60); [| lia].
      count_bounds seconds 60 1 60.
    + compare_all; try reflexivity; exfalso; lra.
  - intros [Hlo Hhi]. exists (Qfloor (seconds / 3600)). split.
    + assert (H : 1 ≤ Qfloor (seconds / 3600) < 24); [| lia].
      count_bounds seconds 3600 1 24.
    + compare_all; try reflexivity; exfalso; lra.
  - intros [Hlo Hhi]. exists (Qfloor (seconds / 604800)). split.
    + assert (H : 0 ≤ Qfloor (seconds / 604800) < 5); [| lia].
      count_bounds seconds 604800 0 5.
    + compare_all; try reflexivity; exfalso; lra.
  - intros [Hlo Hhi]. exists (Qfloor (seconds / 2592000)). split.
    + assert (H : 1 ≤ Qfloor (seconds / 2592000) < 13); [| lia].
      count_bounds seconds 2592000 1 13.
    + compare_all; try reflexivity; exfalso; lra.
  - intros Hlo. exists (Qfloor (seconds / 31536000)). split.
    + rewrite <- (Qfloor_Z 1). apply Qfloor_resp_le.
      apply Qle_shift_div_l; [reflexivity | exact Hlo].
    + compare_all; try reflexivity; exfalso; lra.
Qed.

Lemma secs_to_time_counts_witness :
  ∃ n, 1 ≤ n ≤ 12 ∧ secs_to_time 31000000 = duration_text n "mes" "meses".
Proof.
  apply (proj1 (proj2 (proj2 (proj2 (proj2
           (secs_to_time_counts 31000000)))))).
  split; [unfold Qle | unfold Qlt]; simpl; lia.
Defined.

(** X18: from one day up to, but not including, one week the text is
    [0 semanas]: there is no unit of days. *)
Theorem secs_to_time_zero_weeks (seconds : Q) :
  (86400 <= seconds)%Q → (seconds < 604800)%Q →
  secs_to_time seconds = "0 semanas".
Proof.
  intros Hlo Hhi.
  rewrite secs_to_time_cases, !py_int_floordiv.
  change (inject_Z 604800) with 604800%Q.
  assert (H0 : Qfloor (seconds / 604800) = 0).
  { assert (H : 0 ≤ Qfloor (seconds / 604800) < 1); [| lia].
    count_bounds seconds 604800 0 1. }
  rewrite H0. compare_all; try reflexivity; exfalso; lra.
Qed.

Lemma secs_to_time_zero_weeks_witness :
  secs_to_time 300000 = "0 semanas".
Proof.
  apply (secs_to_time_zero_weeks 300000);
    [unfold Qle | unfold Qlt]; simpl; lia.
Defined.

(** ** The analysis as a whole *)


Lemma calc_password_combinations_pos (p : PasswordInfo) :
  has_category p → 0 < calc_password_combinations p.
Proof.
  intros Hcat. rewrite calc_password_combinations_eq.
  apply Z.pow_pos_nonneg; [| lia].
  pose proof (weight_sum_pos p Hcat). lia.
Qed.












(** Beyond the float range the division raises: 150 characters of all
    six classes. *)
Example analysis_overflow :
  get_bruteforce_time
    (calc_password_combinations
       (mkPasswordInfo 150 true true true true true true 0))
    (S754_finite false 8388608000000000 (-23))
  = Err OverflowError.
Proof. vm_compute. reflexivity. Qed.

(** ** Coloured printing *)

(** X21: [cprint] prints exactly when both arguments are strings and the
    colour table has a [RST] entry.  Without that entry it raises
    KeyError even for a colour the table knows; a text that is no string
    is reported before the colour is looked at. *)
Theorem cprint_succeeds (COLORS : gmap string string)
    (text color : argument) :
  ((∃ line, cprint COLORS text color = inr line)
     ↔ (∃ t c, text = Str t ∧ color = Str c) ∧ is_Some (COLORS !! "RST"))
  ∧ (∀ t c, COLORS !! "RST" = None →
       cprint COLORS (Str t) (Str c) = inl (KeyError "RST"))
  ∧ (∃ message, cprint COLORS NotStr color = inl (ValueError message)).
Proof.
  split; [| split].
  - destruct text as [t |], color as [c |]; simpl.
    + destruct (COLORS !! "RST") as [reset |] eqn:Hrst.
      * split; [intros _; split; eauto | eauto].
      * split; [intros [line Hl]; discriminate Hl |].
        intros [_ [reset Hs]]. discriminate Hs.
    + split; [intros [line Hl]; discriminate Hl |].
      intros [(t' & c' & _ & Hc) _]. discriminate Hc.
    + split; [intros [line Hl]; discriminate Hl |].
      intros [(t' & c' & Ht & _) _]. discriminate Ht.
    + split; [intros [line Hl]; discriminate Hl |].
      intros [(t' & c' & Ht & _) _]. discriminate Ht.
  - intros t c Hrst. simpl. by rewrite Hrst.
  - simpl. eauto.
Qed.

Lemma cprint_succeeds_witness :
  cprint {[ "R" := "<r>" ]} (Str "hola") (Str "R") = inl (KeyError "RST").
Proof.
  apply (proj1 (proj2 (cprint_succeeds {[ "R" := "<r>" ]}
                         (Str "hola") (Str "R")))).
  vm_compute. reflexivity.
Defined.

(** X22: when it prints, the line is the colour code, the text and the
    reset code; a colour the table does not know is printed with the
    reset code, as if [RST] had been asked for. *)
Theorem cprint_line (COLORS : gmap string string)
    (text color reset : string) :
  COLORS !! "RST" = Some reset →
  cprint COLORS (Str text) (Str color)
  = inr (default reset (COLORS !! color) +:+ text +:+ reset)
  ∧ (COLORS !! color = None →
     cprint COLORS (Str text) (Str color)
     = cprint COLORS (Str text) (Str "RST")).
Proof.
  intros Hrst. simpl. rewrite Hrst.
  destruct (COLORS !! color) as [code |]; simpl; split; try done.
Qed.

Lemma cprint_line_witness :
  cprint {[ "RST" := "<0>"; "R" := "<r>" ]} (Str "hola") (Str "X")
  = cprint {[ "RST" := "<0>"; "R" := "<r>" ]} (Str "hola") (Str "RST").
Proof.
  assert (Hrst : ({[ "RST" := "<0>"; "R" := "<r>" ]} : gmap string string)
                 !! "RST" = Some "<0>") by (vm_compute; reflexivity).
  apply (proj2 (cprint_line {[ "RST" := "<0>"; "R" := "<r>" ]}
                  "hola" "X" "<0>" Hrst)).
  vm_compute. reflexivity.
Defined.

Example cprint_red :
  cprint {[ "RST" := "<0>"; "R" := "<r>" ]} (Str "hola") (Str "R")
  = inr "<r>hola<0>".
Proof. vm_compute. reflexivity. Qed.
